(** * Allwinner D1 internal LDO driver (drivers/regulator/sun20i-regulator.c)

    A shallow embedding of the driver: the regulator descriptors of the two
    LDO sets, the voltage-ladder arithmetic of the system LDOs, the band-gap
    calibration hook and the probe routine, followed by the properties of the
    design document that concern them.

    C [unsigned int] values are integers of [Z] in [0, 2^32) with the
    wrap-around written out ([u32]); a C [int] result is a [Z] obtained with
    [to_int]; negative results are errno codes, as in the kernel. *)

From Stdlib Require Import ZArith Lia List Bool String QArith Qabs.
From stdpp Require Import base gmap strings list.

Local Open Scope Z_scope.

(** ** Machine integers *)

Module Mach.

Definition wordsize : Z := 32.
Definition modulus : Z := 2 ^ wordsize.
Definition half_modulus : Z := 2 ^ (wordsize - 1).

(** Reduction of an arithmetic result to [unsigned int]. *)
Definition u32 (x : Z) : Z := x mod modulus.

(** Conversion of an [unsigned int] to [int] (two's complement). *)
Definition to_int (x : Z) : Z :=
  if x <? half_modulus then x else x - modulus.

Definition is_u32 (x : Z) : Prop := 0 <= x < modulus.

Definition EIO : Z := 5.
Definition EINVAL : Z := 22.
Definition EPROBE_DEFER : Z := 517.

End Mach.
Export Mach.

(** ** Bit masks (include/linux/bits.h) *)

(** Modelled from the spec: the kernel macros [BIT] and [GENMASK] are not
    part of the source file.  Following the glossary, a bit field is a
    contiguous set of bits of a register: [GENMASK h l] has exactly the bits
    [l..h] set, [BIT n] is bit [n] alone. *)
Definition BIT (n : Z) : Z := Z.shiftl 1 n.

Definition GENMASK (h l : Z) : Z := Z.shiftl (Z.ones (h - l + 1)) l.

Definition SUN20I_POWER_REG : Z := 0x348.

Definition SUN20I_SYS_LDO_CTRL_REG : Z := 0x150.

(** ** Regulator descriptors *)

(** The entries of [struct regulator_ops] are function pointers; each field
    holds the name of the function it points to, [None] for a pointer that the
    table leaves unset. *)
Inductive list_voltage_fn :=
| regulator_list_voltage_linear_fn
| sun20i_d1_system_ldo_list_voltage_fn.

Inductive map_voltage_fn :=
| regulator_map_voltage_linear_fn
| regulator_map_voltage_ascend_fn.

Inductive set_voltage_sel_fn := regulator_set_voltage_sel_regmap_fn.
Inductive get_voltage_sel_fn := regulator_get_voltage_sel_regmap_fn.
Inductive enable_fn := regulator_enable_regmap_fn.
Inductive disable_fn := regulator_disable_regmap_fn.
Inductive is_enabled_fn := regulator_is_enabled_regmap_fn.

Record regulator_ops := {
  list_voltage : option list_voltage_fn;
  map_voltage : option map_voltage_fn;
  set_voltage_sel : option set_voltage_sel_fn;
  get_voltage_sel : option get_voltage_sel_fn;
  enable : option enable_fn;
  disable : option disable_fn;
  is_enabled : option is_enabled_fn;
}.

Inductive regulator_type := REGULATOR_VOLTAGE | REGULATOR_CURRENT.

(** The fields of [struct regulator_desc] that the driver initialises; the
    numeric ones are [unsigned int] in the kernel, and a field that an
    initialiser leaves out is zero. *)
Record regulator_desc := {
  name : string;
  supply_name : string;
  of_match : string;
  ops : regulator_ops;
  type : regulator_type;
  n_voltages : Z;
  min_uV : Z;
  uV_step : Z;
  vsel_reg : Z;
  vsel_mask : Z;
  enable_reg : Z;
  enable_mask : Z;
}.

Definition sun20i_d1_analog_ldo_ops : regulator_ops := {|
  list_voltage := Some regulator_list_voltage_linear_fn;
  map_voltage := Some regulator_map_voltage_linear_fn;
  set_voltage_sel := Some regulator_set_voltage_sel_regmap_fn;
  get_voltage_sel := Some regulator_get_voltage_sel_regmap_fn;
  enable := Some regulator_enable_regmap_fn;
  disable := Some regulator_disable_regmap_fn;
  is_enabled := Some regulator_is_enabled_regmap_fn;
|}.

Definition aldo : regulator_desc := {|
  name := "aldo";
  supply_name := "vdd33";
  of_match := "aldo";
  ops := sun20i_d1_analog_ldo_ops;
  type := REGULATOR_VOLTAGE;
  n_voltages := 8;
  min_uV := 1650000;
  uV_step := 50000;
  vsel_reg := SUN20I_POWER_REG;
  vsel_mask := GENMASK 14 12;
  enable_reg := SUN20I_POWER_REG;
  enable_mask := BIT 31;
|}.

Definition hpldo : regulator_desc := {|
  name := "hpldo";
  supply_name := "hpldoin";
  of_match := "hpldo";
  ops := sun20i_d1_analog_ldo_ops;
  type := REGULATOR_VOLTAGE;
  n_voltages := 8;
  min_uV := 1650000;
  uV_step := 50000;
  vsel_reg := SUN20I_POWER_REG;
  vsel_mask := GENMASK 10 8;
  enable_reg := SUN20I_POWER_REG;
  enable_mask := BIT 30;
|}.

Definition sun20i_d1_analog_ldo_descs : list regulator_desc := [aldo; hpldo].

Definition sun20i_d1_system_ldo_ops : regulator_ops := {|
  list_voltage := Some sun20i_d1_system_ldo_list_voltage_fn;
  map_voltage := Some regulator_map_voltage_ascend_fn;
  set_voltage_sel := Some regulator_set_voltage_sel_regmap_fn;
  get_voltage_sel := Some regulator_get_voltage_sel_regmap_fn;
  enable := None;
  disable := None;
  is_enabled := None;
|}.

Definition ldoa : regulator_desc := {|
  name := "ldoa";
  supply_name := "ldo-in";
  of_match := "ldoa";
  ops := sun20i_d1_system_ldo_ops;
  type := REGULATOR_VOLTAGE;
  n_voltages := 32;
  min_uV := 1600000;
  uV_step := 13333;
  vsel_reg := SUN20I_SYS_LDO_CTRL_REG;
  vsel_mask := GENMASK 7 0;
  enable_reg := 0;
  enable_mask := 0;
|}.

Definition ldob : regulator_desc := {|
  name := "ldob";
  supply_name := "ldo-in";
  of_match := "ldob";
  ops := sun20i_d1_system_ldo_ops;
  type := REGULATOR_VOLTAGE;
  n_voltages := 64;
  min_uV := 1166666;
  uV_step := 13333;
  vsel_reg := SUN20I_SYS_LDO_CTRL_REG;
  vsel_mask := GENMASK 15 8;
  enable_reg := 0;
  enable_mask := 0;
|}.

Definition sun20i_d1_system_ldo_descs : list regulator_desc := [ldoa; ldob].

(** ** Ladder arithmetic *)

(** [sun20i_d1_system_ldo_list_voltage]: regulator_list_voltage_linear()
    modified for the non-integral uV_step.  [selector] is an [unsigned int];
    the result is the C [int] that the function returns. *)
Definition sun20i_d1_system_ldo_list_voltage
    (desc : regulator_desc) (selector : Z) : Z :=
  if n_voltages desc <=? selector then - EINVAL
  else
    let uV := u32 (min_uV desc + u32 (uV_step desc * selector)) in
    (* Produce correctly-rounded absolute voltages. *)
    to_int (u32 (uV + u32 (selector + 1 + min_uV desc mod 4) / 3)).

(** Modelled from the spec: [regulator_list_voltage_linear] belongs to the
    regulator core (drivers/regulator/helpers.c), which is not part of the
    source file.  For a linear ladder the voltage of a code is
    [min_uV + step_uV * code], exactly, and a code at or beyond [n_codes] is
    out of range. *)
Definition regulator_list_voltage_linear
    (desc : regulator_desc) (selector : Z) : Z :=
  if n_voltages desc <=? selector then - EINVAL
  else min_uV desc + uV_step desc * selector.

(** The call [desc->ops->list_voltage(rdev, selector)] of the regulator core;
    a descriptor without the operation cannot list voltages. *)
Definition call_list_voltage (desc : regulator_desc) (selector : Z) : Z :=
  match list_voltage (ops desc) with
  | Some regulator_list_voltage_linear_fn =>
      regulator_list_voltage_linear desc selector
  | Some sun20i_d1_system_ldo_list_voltage_fn =>
      sun20i_d1_system_ldo_list_voltage desc selector
  | None => - EINVAL
  end.

(** The outcome of an operation as the design document names it: a C result
    below zero is the failure with that errno. *)
Inductive outcome :=
| Ok (value : Z)
| Fail (errno : Z).

Definition outcome_of_int (ret : Z) : outcome :=
  if ret <? 0 then Fail (- ret) else Ok ret.

Abbreviation OutOfRange := (Fail EINVAL).

Definition voltage_of (rail : regulator_desc) (code : Z) : outcome :=
  outcome_of_int (call_list_voltage rail code).

(** The rails of the driver, analog set first. *)
Definition driver_rails : list regulator_desc :=
  sun20i_d1_analog_ldo_descs ++ sun20i_d1_system_ldo_descs.

(** Modelled from the spec: the [map_voltage] operations of the two tables
    ([regulator_map_voltage_linear], [regulator_map_voltage_ascend]) belong to
    the regulator core, which is not part of the source file.  The design
    document gives both one contract, [selector_for]: an ascending search that
    returns the smallest code whose voltage is at or above the target, and
    fails with [OutOfRange] when no code qualifies.  [ascend_scan] visits the
    codes [code, code + 1, ...], [remaining] of them. *)
Fixpoint ascend_scan (rail : regulator_desc) (target_uV : Z)
    (code : Z) (remaining : nat) : outcome :=
  match remaining with
  | O => OutOfRange
  | S k =>
      match voltage_of rail code with
      | Ok uV =>
          if target_uV <=? uV then Ok code
          else ascend_scan rail target_uV (code + 1) k
      | Fail _ => ascend_scan rail target_uV (code + 1) k
      end
  end.

Definition selector_for (rail : regulator_desc) (target_uV : Z) : outcome :=
  ascend_scan rail target_uV 0 (Z.to_nat (n_voltages rail)).

(** The contract of [selector_for] in the words of the design document:
    [code] is the smallest code of the ladder whose voltage is at or above
    the target. *)
Definition at_or_above (rail : regulator_desc) (target_uV code : Z) : Prop :=
  exists uV, voltage_of rail code = Ok uV /\ target_uV <= uV.

Definition smallest_code_at_or_above
    (rail : regulator_desc) (target_uV code : Z) : Prop :=
  0 <= code < n_voltages rail /\
  at_or_above rail target_uV code /\
  forall code', 0 <= code' < code -> ~ at_or_above rail target_uV code'.

(** ** Register access *)

(** Modelled from the spec: the register map (drivers/base/regmap) is not
    part of the source file.  It is a register space of 32-bit words at
    integer offsets; an offset outside the space cannot be accessed and the
    access fails with [-EIO].  [regmap_update_bits] is the read-modify-write
    that replaces only the masked bits and leaves all other bits unchanged
    ([orig & ~mask | val & mask], the complement taken over the integers, so
    that a 32-bit word stays one under a 32-bit mask); it returns the C result
    and the register space after the call. *)
Definition regmap_read (map : gmap Z Z) (reg : Z) : option Z := map !! reg.

Definition regmap_update_bits (map : gmap Z Z) (reg mask val : Z)
    : Z * gmap Z Z :=
  match map !! reg with
  | None => (- EIO, map)
  | Some orig =>
      let tmp := Z.land orig (Z.lnot mask) in
      let tmp := Z.lor tmp (Z.land val mask) in
      (0, <[reg := tmp]> map)
  end.

(** The value of bit [i] of a register, when the register can be read. *)
Definition regmap_test_bit (map : gmap Z Z) (reg i : Z) : option bool :=
  (fun word => Z.testbit word i) <$> regmap_read map reg.

(** The register and mask pairs of a rail: its selector field and its enable
    field. *)
Definition rail_fields (desc : regulator_desc) : list (Z * Z) :=
  [(vsel_reg desc, vsel_mask desc); (enable_reg desc, enable_mask desc)].

(** Two rails occupy disjoint bits: no bit belongs to a field of both. *)
Definition fields_disjoint (d1 d2 : regulator_desc) : Prop :=
  forall f1 f2, In f1 (rail_fields d1) -> In f2 (rail_fields d2) ->
    Z.land (snd f1) (snd f2) = 0.

(** ** The platform device *)

(** What the probe routine obtains from the kernel for one device: the
    compatible string of its devicetree node, the register map of the parent
    through the syscon interface ([None] for an error pointer) and through the
    parent platform device ([None] for NULL), the result and the byte of
    [nvmem_cell_read_u8] for a cell name, and the result of
    [devm_regulator_register] for a descriptor given the rails registered so
    far (zero on success, a negative errno for an error pointer). *)
Record device := {
  compatible : string;
  syscon_node_to_regmap : option (gmap Z Z);
  dev_get_regmap : option (gmap Z Z);
  nvmem_cell_read_u8 : string -> Z * Z;
  devm_regulator_register : list regulator_desc -> regulator_desc -> Z;
}.

(** [dev_err_probe] logs the message and returns the error it is given. *)
Definition dev_err_probe (err : Z) : Z := err.

Record sun20i_regulator_data := {
  init : option (device -> gmap Z Z -> Z * gmap Z Z);
  descs : list regulator_desc;
  ndescs : Z;
}.

(** ** Calibration hook *)

(** The trim that the hook programs for a byte read from the cell. *)
Definition bg_trim_value (bg_trim : Z) : Z :=
  (* The default value corresponds to 900 mV. *)
  if bg_trim =? 0 then 0x19 else bg_trim.

Definition sun20i_d1_analog_ldos_init (dev : device) (regmap : gmap Z Z)
    : Z * gmap Z Z :=
  let '(ret, bg_trim) := nvmem_cell_read_u8 dev "bg_trim" in
  if negb (ret =? 0) then (dev_err_probe ret, regmap)
  else
    regmap_update_bits regmap SUN20I_POWER_REG (GENMASK 7 0)
      (bg_trim_value bg_trim).

Definition sun20i_d1_analog_ldos : sun20i_regulator_data := {|
  init := Some sun20i_d1_analog_ldos_init;
  descs := sun20i_d1_analog_ldo_descs;
  ndescs := Z.of_nat (length sun20i_d1_analog_ldo_descs);
|}.

Definition sun20i_d1_system_ldos : sun20i_regulator_data := {|
  init := None;
  descs := sun20i_d1_system_ldo_descs;
  ndescs := Z.of_nat (length sun20i_d1_system_ldo_descs);
|}.

(** The match table; the empty entry that ends the C array is the end of the
    list. *)
Definition sun20i_regulator_of_match
    : list (string * sun20i_regulator_data) :=
  [ ("allwinner,sun20i-d1-analog-ldos", sun20i_d1_analog_ldos);
    ("allwinner,sun20i-d1-system-ldos", sun20i_d1_system_ldos) ].

(** ** Probe *)

(** [of_device_get_match_data]: the data of the first table entry whose
    compatible string is the device's, NULL when there is none. *)
Definition of_device_get_match_data (dev : device)
    : option sun20i_regulator_data :=
  snd <$> List.find (fun e => String.eqb (fst e) (compatible dev))
            sun20i_regulator_of_match.

Definition sun20i_regulator_get_regmap (dev : device) : Z + gmap Z Z :=
  match syscon_node_to_regmap dev with
  | Some regmap => inr regmap
  | None =>
      match dev_get_regmap dev with
      | Some regmap => inr regmap
      | None => inl (- EPROBE_DEFER)
      end
  end.

(** The registration loop of the probe routine over the descriptors still to
    register; [rdevs] are the rails registered so far. *)
Fixpoint register_descs (dev : device) (todo : list regulator_desc)
    (rdevs : list regulator_desc) : Z * list regulator_desc :=
  match todo with
  | [] => (0, rdevs)
  | desc :: rest =>
      let err := devm_regulator_register dev rdevs desc in
      if negb (err =? 0) then (err, rdevs)
      else register_descs dev rest (rdevs ++ [desc])
  end.

(** The state that the probe routine leaves: its result, the rails it
    registered and the register space ([None] when no register map was
    obtained). *)
Record probe_state := {
  probe_ret : Z;
  probe_rdevs : list regulator_desc;
  probe_regmap : option (gmap Z Z);
}.

Definition sun20i_regulator_probe (dev : device) : probe_state :=
  match of_device_get_match_data dev with
  | None => {| probe_ret := - EINVAL; probe_rdevs := []; probe_regmap := None |}
  | Some data =>
      match sun20i_regulator_get_regmap dev with
      | inl err =>
          {| probe_ret := dev_err_probe err; probe_rdevs := [];
             probe_regmap := None |}
      | inr regmap =>
          let '(ret, regmap) :=
            match init data with
            | Some f => f dev regmap
            | None => (0, regmap)
            end in
          if negb (ret =? 0) then
            {| probe_ret := ret; probe_rdevs := [];
               probe_regmap := Some regmap |}
          else
            let '(ret, rdevs) :=
              register_descs dev
                (firstn (Z.to_nat (ndescs data)) (descs data)) [] in
            {| probe_ret := ret; probe_rdevs := rdevs;
               probe_regmap := Some regmap |}
      end
  end.

(** ** Reference ladders *)

(** The formula of the design document for a fractional ladder, with the
    remainder of [min_uV] taken modulo 3 as the document words it. *)
Definition spec_fractional_voltage (rail : regulator_desc) (code : Z) : Z :=
  min_uV rail + uV_step rail * code + (code + 1 + min_uV rail mod 3) / 3.

(** The correction term that the code adds to the linear value. *)
Definition correction (rail : regulator_desc) (code : Z) : Z :=
  (code + 1 + min_uV rail mod 4) / 3.

(** The voltage of a code of a rail of the driver in closed form. *)
Definition ladder_uV (rail : regulator_desc) (code : Z) : Z :=
  match list_voltage (ops rail) with
  | Some sun20i_d1_system_ldo_list_voltage_fn =>
      min_uV rail + uV_step rail * code + correction rail code
  | _ => min_uV rail + uV_step rail * code
  end.

(** The ideal ladders of the system LDOs as rationals: steps of 40000/3 uV
    from 1.6 V for ldoa, and from 3500000/3 uV for ldob. *)
Definition ldoa_true_uV (code : Z) : Q :=
  (inject_Z 1600000 + inject_Z code * (40000 # 3))%Q.

Definition ldob_true_uV (code : Z) : Q :=
  ((3500000 # 3) + inject_Z code * (40000 # 3))%Q.

(** [v] is [q] rounded to the nearest integer. *)
Definition rounds_to (q : Q) (v : Z) : Prop :=
  (Qabs (inject_Z v - q) < 1 # 2)%Q.

(** ** A sample device

    A device of the analog LDO set whose parent is a syscon with the enable
    bit of aldo set; the read of the calibration cell returns [nvmem_ret] and
    the byte [bg_trim], and the regulator core accepts every rail. *)
Definition analog_dev (nvmem_ret bg_trim : Z) : device := {|
  compatible := "allwinner,sun20i-d1-analog-ldos";
  syscon_node_to_regmap := Some {[ SUN20I_POWER_REG := 0x80000000 ]};
  dev_get_regmap := None;
  nvmem_cell_read_u8 := fun _ => (nvmem_ret, bg_trim);
  devm_regulator_register := fun _ _ => 0;
|}.

(** ** Arithmetic within the C types

    [fits_int desc selector]: no intermediate value of
    [sun20i_d1_system_ldo_list_voltage] leaves its C type at [selector]: the
    fields are not negative, the numerator of the correction stays an
    [unsigned int] and the voltage stays an [int]. *)
Definition fits_int (desc : regulator_desc) (selector : Z) : Prop :=
  0 <= min_uV desc /\ 0 <= uV_step desc /\
  selector + 1 + min_uV desc mod 4 < modulus /\
  min_uV desc + uV_step desc * selector + correction desc selector
    < half_modulus.

(** The ladder that [sun20i_d1_system_ldo_list_voltage] follows on any
    descriptor, as a rational: it starts [min_uV % 4] thirds of a microvolt
    above [min_uV] and each step is a third of a microvolt longer than
    [uV_step]. *)
Definition ideal_ladder_uV (desc : regulator_desc) (selector : Z) : Q :=
  (inject_Z (min_uV desc) + (min_uV desc mod 4 # 3)
   + inject_Z selector * (inject_Z (uV_step desc) + (1 # 3)))%Q.

(** ** More sample devices *)


(** A device of the system LDO set: the parent is not a syscon, its platform
    device has the register map, and there is no calibration cell. *)
Definition system_dev : device := {|
  compatible := "allwinner,sun20i-d1-system-ldos";
  syscon_node_to_regmap := None;
  dev_get_regmap := Some {[ SUN20I_SYS_LDO_CTRL_REG := 0x2a15 ]};
  nvmem_cell_read_u8 := fun _ => (-2, 0);
  devm_regulator_register := fun _ _ => 0;
|}.

(** An analog LDO device on which the regulator core refuses hpldo with
    [-EBUSY]. *)
Definition hpldo_refused_dev : device := {|
  compatible := "allwinner,sun20i-d1-analog-ldos";
  syscon_node_to_regmap := Some {[ SUN20I_POWER_REG := 0x80000000 ]};
  dev_get_regmap := None;
  nvmem_cell_read_u8 := fun _ => (0, 0x1c);
  devm_regulator_register :=
    fun _ desc => if String.eqb (name desc) "hpldo" then -16 else 0;
|}.

(** A system LDO device whose parent has no register map yet. *)
Definition orphan_dev : device := {|
  compatible := "allwinner,sun20i-d1-system-ldos";
  syscon_node_to_regmap := None;
  dev_get_regmap := None;
  nvmem_cell_read_u8 := fun _ => (-2, 0);
  devm_regulator_register := fun _ _ => 0;
|}.

(** A device that the match table does not know. *)
Definition unknown_dev : device := {|
  compatible := "allwinner,sun50i-a64-ldos";
  syscon_node_to_regmap := Some {[ SUN20I_POWER_REG := 0 ]};
  dev_get_regmap := None;
  nvmem_cell_read_u8 := fun _ => (0, 0);
  devm_regulator_register := fun _ _ => 0;
|}.

(** * Properties *)

Example ldoa_code0 : voltage_of ldoa 0 = Ok 1600000.
Proof. reflexivity. Qed.

Example ldoa_code1 : voltage_of ldoa 1 = Ok 1613333.
Proof. reflexivity. Qed.

Example ldob_code0 : voltage_of ldob 0 = Ok 1166667.
Proof. reflexivity. Qed.

Example aldo_code7 : voltage_of aldo 7 = Ok 2000000.
Proof. reflexivity. Qed.

Example ldoa_code32 : voltage_of ldoa 32 = OutOfRange.
Proof. reflexivity. Qed.

Example ldoa_selector_for : selector_for ldoa 1613334 = Ok 2.
Proof. reflexivity. Qed.

Example ldoa_selector_for_max : selector_for ldoa 2013334 = OutOfRange.
Proof. reflexivity. Qed.

(** Case analysis on the integer comparison that guards the goal. *)
Ltac case_cmp :=
  match goal with
  | |- context [?a <=? ?b] => destruct (Z.leb_spec a b)
  | |- context [?a <? ?b] => destruct (Z.ltb_spec a b)
  | |- context [?a =? ?b] => destruct (Z.eqb_spec a b)
  end.

(** ** Machine arithmetic without overflow *)

Lemma modulus_eq : modulus = 4294967296.
Proof. reflexivity. Qed.

Lemma half_modulus_eq : half_modulus = 2147483648.
Proof. reflexivity. Qed.

Lemma u32_small (x : Z) : 0 <= x < modulus -> u32 x = x.
Proof. intros Hx. unfold u32. apply Z.mod_small. exact Hx. Qed.

Lemma to_int_small (x : Z) : 0 <= x < half_modulus -> to_int x = x.
Proof.
  intros Hx. unfold to_int.
  destruct (Z.ltb_spec x half_modulus) as [_ | Hge]; [reflexivity | lia].
Qed.

Lemma outcome_of_int_nonneg (ret : Z) : 0 <= ret -> outcome_of_int ret = Ok ret.
Proof.
  intros Hret. unfold outcome_of_int.
  destruct (Z.ltb_spec ret 0); [lia | reflexivity].
Qed.

(** ** The list_voltage operations *)

(** A selector at or beyond [n_voltages] is refused, whatever the rail. *)
Lemma system_ldo_list_voltage_beyond (desc : regulator_desc) (selector : Z) :
  n_voltages desc <= selector ->
  sun20i_d1_system_ldo_list_voltage desc selector = - EINVAL.
Proof.
  intros Hsel. unfold sun20i_d1_system_ldo_list_voltage.
  destruct (Z.leb_spec (n_voltages desc) selector); [reflexivity | lia].
Qed.

(** As long as no intermediate value leaves its C type, the function returns
    the linear value plus a third of [selector + 1 + min_uV % 4]. *)
Lemma system_ldo_list_voltage_exact (desc : regulator_desc) (selector : Z) :
  0 <= selector < n_voltages desc ->
  0 <= min_uV desc -> 0 <= uV_step desc ->
  selector + 1 + min_uV desc mod 4 < modulus ->
  min_uV desc + uV_step desc * selector + correction desc selector
    < half_modulus ->
  sun20i_d1_system_ldo_list_voltage desc selector =
  min_uV desc + uV_step desc * selector + correction desc selector.
Proof.
  intros Hsel Hmin Hstep Hnum Hfit. unfold correction in *.
  unfold sun20i_d1_system_ldo_list_voltage.
  destruct (Z.leb_spec (n_voltages desc) selector) as [Hge | _]; [lia |].
  rewrite half_modulus_eq in Hfit.
  assert (Hm4 : 0 <= min_uV desc mod 4 < 4) by (apply Z.mod_pos_bound; lia).
  assert (Hprod : 0 <= uV_step desc * selector) by nia.
  assert (Hcorr : 0 <= (selector + 1 + min_uV desc mod 4) / 3)
    by (apply Z.div_pos; lia).
  rewrite modulus_eq in Hnum.
  rewrite (u32_small (uV_step desc * selector)) by (rewrite modulus_eq; lia).
  rewrite (u32_small (min_uV desc + _)) by (rewrite modulus_eq; lia).
  rewrite (u32_small (selector + 1 + _)) by (rewrite modulus_eq; lia).
  rewrite u32_small by (rewrite modulus_eq; lia).
  apply to_int_small. rewrite half_modulus_eq. lia.
Qed.

Lemma In_system_descs (rail : regulator_desc) :
  In rail sun20i_d1_system_ldo_descs -> rail = ldoa \/ rail = ldob.
Proof. simpl. intuition. Qed.

Lemma In_analog_descs (rail : regulator_desc) :
  In rail sun20i_d1_analog_ldo_descs -> rail = aldo \/ rail = hpldo.
Proof. simpl. intuition. Qed.

Lemma In_driver_rails (rail : regulator_desc) :
  In rail driver_rails ->
  In rail sun20i_d1_analog_ldo_descs \/ In rail sun20i_d1_system_ldo_descs.
Proof. unfold driver_rails. intros H. apply in_app_or in H. exact H. Qed.

(** The correction is at most a third of the ladder's length plus one. *)
Lemma correction_bounds (rail : regulator_desc) (code : Z) :
  0 <= code -> 0 <= correction rail code <= (code + 4) / 3.
Proof.
  intros Hc. unfold correction.
  assert (Hm4 : 0 <= min_uV rail mod 4 < 4) by (apply Z.mod_pos_bound; lia).
  split; [apply Z.div_pos; lia | apply Z.div_le_mono; lia].
Qed.

(** On the system LDOs of the driver every code in range gets its closed
    form. *)
Lemma system_rail_list_voltage (rail : regulator_desc) (code : Z) :
  In rail sun20i_d1_system_ldo_descs ->
  0 <= code < n_voltages rail ->
  sun20i_d1_system_ldo_list_voltage rail code =
  min_uV rail + uV_step rail * code + correction rail code.
Proof.
  intros Hin Hc.
  pose proof (correction_bounds rail code (proj1 Hc)) as Hcorr.
  assert (Hq : (code + 4) / 3 <= code + 4)
    by (apply Z.div_le_upper_bound; lia).
  pose proof (Z.mod_pos_bound (min_uV rail) 4 ltac:(lia)) as Hm4.
  apply system_ldo_list_voltage_exact; trivial;
    apply In_system_descs in Hin; destruct Hin as [-> | ->];
    cbn [min_uV uV_step n_voltages ldoa ldob] in *;
    try rewrite half_modulus_eq; try rewrite modulus_eq; lia.
Qed.

(** The voltage of a code in range of a rail of the driver is its closed
    form, which is not negative. *)
Lemma driver_rail_list_voltage (rail : regulator_desc) (code : Z) :
  In rail driver_rails ->
  0 <= code < n_voltages rail ->
  call_list_voltage rail code = ladder_uV rail code /\
  0 <= ladder_uV rail code.
Proof.
  intros Hin Hc. apply In_driver_rails in Hin. destruct Hin as [Hin | Hin].
  - unfold call_list_voltage, ladder_uV.
    apply In_analog_descs in Hin. destruct Hin as [-> | ->];
      cbn [ops list_voltage aldo hpldo sun20i_d1_analog_ldo_ops] in *;
      unfold regulator_list_voltage_linear;
      cbn [min_uV uV_step n_voltages aldo hpldo] in *;
      (case_cmp; [lia | split; [reflexivity | lia]]).
  - pose proof (system_rail_list_voltage rail code Hin Hc) as Heq.
    pose proof (correction_bounds rail code (proj1 Hc)) as Hcorr.
    unfold call_list_voltage, ladder_uV.
    apply In_system_descs in Hin. destruct Hin as [-> | ->];
      cbn [ops list_voltage ldoa ldob sun20i_d1_system_ldo_ops] in *;
      (split; [exact Heq |]);
      cbn [min_uV uV_step n_voltages ldoa ldob] in *; lia.
Qed.

Lemma driver_rail_voltage_of (rail : regulator_desc) (code : Z) :
  In rail driver_rails ->
  0 <= code < n_voltages rail ->
  voltage_of rail code = Ok (ladder_uV rail code).
Proof.
  intros Hin Hc.
  destruct (driver_rail_list_voltage rail code Hin Hc) as [Heq Hpos].
  unfold voltage_of. rewrite Heq. apply outcome_of_int_nonneg. exact Hpos.
Qed.

(** Beyond the last code every rail of the driver answers [-EINVAL]. *)
Lemma driver_rail_voltage_of_beyond (rail : regulator_desc) (code : Z) :
  In rail driver_rails ->
  n_voltages rail <= code ->
  voltage_of rail code = OutOfRange.
Proof.
  intros Hin Hc. unfold voltage_of, call_list_voltage.
  apply In_driver_rails in Hin. destruct Hin as [Hin | Hin].
  - apply In_analog_descs in Hin. destruct Hin as [-> | ->];
      cbn [ops list_voltage aldo hpldo sun20i_d1_analog_ldo_ops];
      unfold regulator_list_voltage_linear;
      (case_cmp; [reflexivity | lia]).
  - apply In_system_descs in Hin. destruct Hin as [-> | ->];
      cbn [ops list_voltage ldoa ldob sun20i_d1_system_ldo_ops];
      rewrite system_ldo_list_voltage_beyond by exact Hc; reflexivity.
Qed.

(** The closed form grows with the code: the step is positive and the
    correction never decreases. *)
Lemma ladder_uV_strict_mono (rail : regulator_desc) (code1 code2 : Z) :
  In rail driver_rails ->
  0 <= code1 -> code1 < code2 ->
  ladder_uV rail code1 < ladder_uV rail code2.
Proof.
  intros Hin H1 H12.
  assert (Hstep : 0 < uV_step rail).
  { apply In_driver_rails in Hin. destruct Hin as [Hin | Hin];
      [apply In_analog_descs in Hin | apply In_system_descs in Hin];
      destruct Hin as [-> | ->]; reflexivity. }
  assert (Hcorr : correction rail code1 <= correction rail code2)
    by (unfold correction; apply Z.div_le_mono; lia).
  unfold ladder_uV.
  destruct (list_voltage (ops rail)) as [[] |]; nia.
Qed.

(** ** Fractional ladders *)

(** C1 as the design document words it, with the remainder of [min_uV]
    taken modulo 3, does not hold: ldoa at code 1 is 1613333 uV, where that
    formula gives 1613334 uV. *)
Lemma fractional_ladder_mod3_fails :
  ~ (forall rail code,
       In rail sun20i_d1_system_ldo_descs ->
       0 <= code < n_voltages rail ->
       voltage_of rail code = Ok (spec_fractional_voltage rail code)).
Proof.
  intros Hclaim.
  specialize (Hclaim ldoa 1 (or_introl eq_refl) ltac:(cbn; lia)).
  vm_compute in Hclaim. discriminate Hclaim.
Qed.

(** C1, amended: for every fractional-ladder rail of the driver and every
    selector code in [0, n_codes), the voltage that the rail's list_voltage
    operation returns is the naive value [min_uV + step_uV * code] plus a
    correction of exactly [(code + 1 + (min_uV mod 4)) / 3] microvolts, in
    integer division. *)
Theorem fractional_ladder_correction (rail : regulator_desc) (code : Z) :
  In rail sun20i_d1_system_ldo_descs ->
  0 <= code < n_voltages rail ->
  sun20i_d1_system_ldo_list_voltage rail code =
    min_uV rail + uV_step rail * code + (code + 1 + min_uV rail mod 4) / 3 /\
  voltage_of rail code =
    Ok (min_uV rail + uV_step rail * code + (code + 1 + min_uV rail mod 4) / 3).
Proof.
  intros Hin Hc. split.
  - apply system_rail_list_voltage; assumption.
  - assert (Hdrv : In rail driver_rails)
      by (unfold driver_rails; apply in_or_app; right; exact Hin).
    rewrite (driver_rail_voltage_of rail code Hdrv Hc).
    unfold ladder_uV, correction.
    apply In_system_descs in Hin. destruct Hin as [-> | ->]; reflexivity.
Qed.

Lemma fractional_ladder_correction_witness :
  sun20i_d1_system_ldo_list_voltage ldob 5 =
    min_uV ldob + uV_step ldob * 5 + (5 + 1 + min_uV ldob mod 4) / 3 /\
  voltage_of ldob 5 =
    Ok (min_uV ldob + uV_step ldob * 5 + (5 + 1 + min_uV ldob mod 4) / 3).
Proof.
  apply (fractional_ladder_correction ldob 5).
  - right. left. reflexivity.
  - cbn. lia.
Defined.

(** C10: for ldob the voltage at selector 0 is 1166667 uV, one microvolt
    above the descriptor's [min_uV], because the correction term
    [(0 + 1 + (1166666 % 4)) / 3] is 1; the voltage at code 0 is not
    [min_uV]. *)
Theorem ldob_code0_above_min_uV :
  min_uV ldob = 1166666 /\ n_voltages ldob = 64 /\
  sun20i_d1_system_ldo_list_voltage ldob 0 = 1166667 /\
  voltage_of ldob 0 = Ok (min_uV ldob + 1) /\
  (0 + 1 + 1166666 mod 4) / 3 = 1 /\
  voltage_of ldob 0 <> Ok (min_uV ldob).
Proof.
  repeat split; try reflexivity.
  vm_compute. discriminate.
Qed.

(** ** Monotonicity and range *)

(** C4: for every rail of the driver, linear or fractional, the voltage is
    strictly increasing in the selector code over [0, n_codes). *)
Theorem voltage_of_strictly_increasing
    (rail : regulator_desc) (code1 code2 : Z) :
  In rail driver_rails ->
  0 <= code1 -> code1 < code2 -> code2 < n_voltages rail ->
  exists uV1 uV2,
    voltage_of rail code1 = Ok uV1 /\ voltage_of rail code2 = Ok uV2 /\
    uV1 < uV2.
Proof.
  intros Hin H1 H12 H2.
  exists (ladder_uV rail code1), (ladder_uV rail code2).
  split; [| split].
  - apply driver_rail_voltage_of; [exact Hin | lia].
  - apply driver_rail_voltage_of; [exact Hin | lia].
  - apply ladder_uV_strict_mono; assumption.
Qed.

Lemma voltage_of_strictly_increasing_witness :
  exists uV1 uV2,
    voltage_of ldob 2 = Ok uV1 /\ voltage_of ldob 3 = Ok uV2 /\ uV1 < uV2.
Proof.
  apply (voltage_of_strictly_increasing ldob 2 3).
  - right. right. right. left. reflexivity.
  - lia.
  - lia.
  - cbn. lia.
Defined.

(** C5: for every rail of the driver, [voltage_of] fails with [OutOfRange]
    and returns no voltage for every code at or beyond [n_codes], and
    succeeds for every code strictly below it. *)
Theorem voltage_of_range (rail : regulator_desc) (code : Z) :
  In rail driver_rails ->
  0 <= code ->
  (n_voltages rail <= code -> voltage_of rail code = OutOfRange) /\
  (code < n_voltages rail -> exists uV, voltage_of rail code = Ok uV).
Proof.
  intros Hin Hc. split.
  - intros Hge. apply driver_rail_voltage_of_beyond; assumption.
  - intros Hlt. exists (ladder_uV rail code).
    apply driver_rail_voltage_of; [exact Hin | lia].
Qed.

Lemma voltage_of_range_witness :
  voltage_of ldoa 32 = OutOfRange /\ exists uV, voltage_of hpldo 7 = Ok uV.
Proof.
  split.
  - apply (voltage_of_range ldoa 32).
    + right. right. left. reflexivity.
    + lia.
    + cbn. lia.
  - apply (voltage_of_range hpldo 7).
    + right. left. reflexivity.
    + lia.
    + cbn. lia.
Defined.

(** ** Correct rounding *)

(** An integer within a third of [num / 3] is that rational rounded to the
    nearest integer. *)
Lemma rounds_to_thirds (num v : Z) (q : Q) :
  (q == num # 3)%Q -> -1 <= 3 * v - num <= 1 -> rounds_to q v.
Proof.
  intros Hq Hv. unfold rounds_to. rewrite Hq.
  apply Qabs_Qlt_condition.
  unfold Qlt, Qminus, Qplus, Qopp, inject_Z. cbn [Qnum Qden].
  split; lia.
Qed.

Lemma ldoa_true_uV_thirds (code : Z) :
  (ldoa_true_uV code == (4800000 + 40000 * code) # 3)%Q.
Proof.
  unfold ldoa_true_uV, Qeq, Qplus, Qmult, inject_Z. cbn [Qnum Qden]. lia.
Qed.

Lemma ldob_true_uV_thirds (code : Z) :
  (ldob_true_uV code == (3500000 + 40000 * code) # 3)%Q.
Proof.
  unfold ldob_true_uV, Qeq, Qplus, Qmult, inject_Z. cbn [Qnum Qden]. lia.
Qed.

Lemma ladder_uV_ldoa (code : Z) :
  ladder_uV ldoa code = 1600000 + 13333 * code + (code + 1) / 3.
Proof.
  unfold ladder_uV, correction. cbn [ops list_voltage min_uV uV_step ldoa
    sun20i_d1_system_ldo_ops].
  change (1600000 mod 4) with 0. rewrite Z.add_0_r. reflexivity.
Qed.

Lemma ladder_uV_ldob (code : Z) :
  ladder_uV ldob code = 1166666 + 13333 * code + (code + 3) / 3.
Proof.
  unfold ladder_uV, correction. cbn [ops list_voltage min_uV uV_step ldob
    sun20i_d1_system_ldo_ops].
  change (1166666 mod 4) with 2.
  replace (code + 1 + 2) with (code + 3) by lia. reflexivity.
Qed.

(** The remainder modulo 4 is what makes both ladders of the driver come out
    correctly rounded: ldob follows the ideal ladder from 3500000/3 uV. *)
Lemma ldob_ladder_correctly_rounded (code : Z) :
  0 <= code < 64 ->
  exists uV, voltage_of ldob code = Ok uV /\ rounds_to (ldob_true_uV code) uV.
Proof.
  intros Hc. exists (ladder_uV ldob code). split.
  - apply driver_rail_voltage_of; [| exact Hc].
    right. right. right. left. reflexivity.
  - apply (rounds_to_thirds (3500000 + 40000 * code)).
    + apply ldob_true_uV_thirds.
    + rewrite ladder_uV_ldob.
      pose proof (Z.div_mod (code + 3) 3 ltac:(lia)) as Hdm.
      pose proof (Z.mod_pos_bound (code + 3) 3 ltac:(lia)) as Hr.
      lia.
Qed.

(** C2: the ldoa descriptor has [min_uV = 1600000], [step_uV = 13333] and 32
    codes; selector 0 yields exactly 1600000; the voltage of every code of
    [0, 32) is the ideal ladder of 40000/3 uV per step from 1600000 uV
    rounded to the nearest integer; and whenever the next code is still in
    range its voltage is strictly greater. *)
Theorem ldoa_ladder_correctly_rounded (code : Z) :
  0 <= code < 32 ->
  (min_uV ldoa = 1600000 /\ uV_step ldoa = 13333 /\ n_voltages ldoa = 32) /\
  voltage_of ldoa 0 = Ok 1600000 /\
  exists uV,
    voltage_of ldoa code = Ok uV /\
    rounds_to (ldoa_true_uV code) uV /\
    (code + 1 < 32 ->
     exists uV', voltage_of ldoa (code + 1) = Ok uV' /\ uV < uV').
Proof.
  intros Hc.
  assert (Hin : In ldoa driver_rails) by (right; right; left; reflexivity).
  split; [repeat split | split; [reflexivity |]].
  exists (ladder_uV ldoa code). split; [| split].
  - apply driver_rail_voltage_of; [exact Hin | exact Hc].
  - apply (rounds_to_thirds (4800000 + 40000 * code)).
    + apply ldoa_true_uV_thirds.
    + rewrite ladder_uV_ldoa.
      pose proof (Z.div_mod (code + 1) 3 ltac:(lia)) as Hdm.
      pose proof (Z.mod_pos_bound (code + 1) 3 ltac:(lia)) as Hr.
      lia.
  - intros Hnext. exists (ladder_uV ldoa (code + 1)). split.
    + apply driver_rail_voltage_of; [exact Hin | cbn; lia].
    + apply ladder_uV_strict_mono; [exact Hin | lia | lia].
Qed.

Lemma ldoa_ladder_correctly_rounded_witness :
  (min_uV ldoa = 1600000 /\ uV_step ldoa = 13333 /\ n_voltages ldoa = 32) /\
  voltage_of ldoa 0 = Ok 1600000 /\
  exists uV,
    voltage_of ldoa 2 = Ok uV /\
    rounds_to (ldoa_true_uV 2) uV /\
    (2 + 1 < 32 ->
     exists uV', voltage_of ldoa (2 + 1) = Ok uV' /\ uV < uV').
Proof.
  apply (ldoa_ladder_correctly_rounded 2). lia.
Defined.

Example ldoa_code2 : voltage_of ldoa 2 = Ok 1626667.
Proof. reflexivity. Qed.

Example ldoa_code31 : voltage_of ldoa 31 = Ok 2013333.
Proof. reflexivity. Qed.

(** ** The ascending search *)

(** What a scan of [remaining] codes from [code] returns: the first code of
    the window whose voltage reaches the target, or [OutOfRange] when the
    window has none. *)
Lemma ascend_scan_spec (rail : regulator_desc) (target_uV : Z)
    (remaining : nat) :
  forall code,
    match ascend_scan rail target_uV code remaining with
    | Ok found =>
        code <= found < code + Z.of_nat remaining /\
        at_or_above rail target_uV found /\
        forall code', code <= code' < found ->
          ~ at_or_above rail target_uV code'
    | Fail errno =>
        errno = EINVAL /\
        forall code', code <= code' < code + Z.of_nat remaining ->
          ~ at_or_above rail target_uV code'
    end.
Proof.
  induction remaining as [| k IH]; intros code.
  - cbn [ascend_scan]. split; [reflexivity | intros code' Hc'; lia].
  - cbn [ascend_scan].
    assert (Hskip : ~ at_or_above rail target_uV code ->
      match ascend_scan rail target_uV (code + 1) k with
      | Ok found =>
          code <= found < code + Z.of_nat (S k) /\
          at_or_above rail target_uV found /\
          forall code', code <= code' < found ->
            ~ at_or_above rail target_uV code'
      | Fail errno =>
          errno = EINVAL /\
          forall code', code <= code' < code + Z.of_nat (S k) ->
            ~ at_or_above rail target_uV code'
      end).
    { intros Hnot. specialize (IH (code + 1)).
      destruct (ascend_scan rail target_uV (code + 1) k) as [found | errno].
      - destruct IH as (Hrange & Hfound & Hmin).
        split; [lia | split; [exact Hfound |]].
        intros code' Hc'.
        destruct (Z.eq_dec code' code) as [-> | Hne];
          [exact Hnot | apply Hmin; lia].
      - destruct IH as (Herr & Hnone). split; [exact Herr |].
        intros code' Hc'.
        destruct (Z.eq_dec code' code) as [-> | Hne];
          [exact Hnot | apply Hnone; lia]. }
    destruct (voltage_of rail code) as [uV | errno] eqn:Hv.
    + destruct (Z.leb_spec target_uV uV) as [Hle | Hgt].
      * split; [lia | split].
        -- exists uV. split; [exact Hv | exact Hle].
        -- intros code' Hc'. lia.
      * apply Hskip. intros (uV' & Hv' & Hle').
        rewrite Hv in Hv'. injection Hv' as <-. lia.
    + apply Hskip. intros (uV' & Hv' & _).
      rewrite Hv in Hv'. discriminate Hv'.
Qed.

(** The search returns a code exactly when that code is the smallest one at
    or above the target; this holds for any descriptor. *)
Lemma selector_for_smallest (rail : regulator_desc) (target_uV code : Z) :
  selector_for rail target_uV = Ok code <->
  smallest_code_at_or_above rail target_uV code.
Proof.
  unfold selector_for, smallest_code_at_or_above.
  pose proof (ascend_scan_spec rail target_uV
                (Z.to_nat (n_voltages rail)) 0) as Hspec.
  split.
  - intros Heq. rewrite Heq in Hspec.
    destruct Hspec as (Hrange & Hfound & Hmin).
    split; [lia | split; [exact Hfound | exact Hmin]].
  - intros (Hrange & Hfound & Hmin).
    destruct (ascend_scan rail target_uV 0 (Z.to_nat (n_voltages rail)))
      as [found | errno].
    + destruct Hspec as (Hrange' & Hfound' & Hmin').
      f_equal.
      destruct (Z.lt_trichotomy found code) as [Hlt | [Heq | Hgt]].
      * exfalso. apply (Hmin found); [lia | exact Hfound'].
      * exact Heq.
      * exfalso. apply (Hmin' code); [lia | exact Hfound].
    + destruct Hspec as (_ & Hnone).
      exfalso. apply (Hnone code); [lia | exact Hfound].
Qed.

(** The search fails exactly when no code of the ladder reaches the target,
    and then with [OutOfRange]. *)
Lemma selector_for_fails (rail : regulator_desc) (target_uV : Z) :
  selector_for rail target_uV = OutOfRange <->
  forall code, 0 <= code < n_voltages rail ->
    ~ at_or_above rail target_uV code.
Proof.
  unfold selector_for.
  pose proof (ascend_scan_spec rail target_uV
                (Z.to_nat (n_voltages rail)) 0) as Hspec.
  split.
  - intros Heq. rewrite Heq in Hspec. destruct Hspec as (_ & Hnone).
    intros code Hc. apply Hnone. lia.
  - intros Hnone.
    destruct (ascend_scan rail target_uV 0 (Z.to_nat (n_voltages rail)))
      as [found | errno].
    + destruct Hspec as (Hrange & Hfound & _).
      exfalso. apply (Hnone found); [lia | exact Hfound].
    + destruct Hspec as (-> & _). reflexivity.
Qed.

Lemma driver_rail_at_or_above (rail : regulator_desc) (target_uV code : Z) :
  In rail driver_rails ->
  0 <= code < n_voltages rail ->
  at_or_above rail target_uV code <-> target_uV <= ladder_uV rail code.
Proof.
  intros Hin Hc. unfold at_or_above.
  rewrite (driver_rail_voltage_of rail code Hin Hc). split.
  - intros (uV & Heq & Hle). injection Heq as <-. exact Hle.
  - intros Hle. exists (ladder_uV rail code). split; [reflexivity | exact Hle].
Qed.

Lemma driver_rail_has_codes (rail : regulator_desc) :
  In rail driver_rails -> 0 < n_voltages rail.
Proof.
  intros Hin. apply In_driver_rails in Hin. destruct Hin as [Hin | Hin];
    [apply In_analog_descs in Hin | apply In_system_descs in Hin];
    destruct Hin as [-> | ->]; reflexivity.
Qed.

(** C3: for every rail of the driver, [selector_for] applied to the voltage
    of a valid code returns exactly that code; [selector_for] returns a code
    exactly when it is the smallest code whose voltage is at or above the
    target; and it fails with [OutOfRange] exactly when the target exceeds
    the voltage of the last code, the ladder's maximum. *)
Theorem selector_for_round_trip (rail : regulator_desc) :
  In rail driver_rails ->
  (forall code, 0 <= code < n_voltages rail ->
     exists uV, voltage_of rail code = Ok uV /\
                selector_for rail uV = Ok code) /\
  (forall target_uV code,
     selector_for rail target_uV = Ok code <->
     smallest_code_at_or_above rail target_uV code) /\
  (exists max_uV,
     voltage_of rail (n_voltages rail - 1) = Ok max_uV /\
     forall target_uV,
       max_uV < target_uV <-> selector_for rail target_uV = OutOfRange).
Proof.
  intros Hin. pose proof (driver_rail_has_codes rail Hin) as Hn.
  split; [| split].
  - intros code Hc. exists (ladder_uV rail code).
    split; [apply driver_rail_voltage_of; assumption |].
    apply selector_for_smallest.
    split; [exact Hc | split].
    + apply driver_rail_at_or_above; [exact Hin | exact Hc | lia].
    + intros code' Hc' Habove.
      apply driver_rail_at_or_above in Habove; [| exact Hin | lia].
      pose proof (ladder_uV_strict_mono rail code' code Hin) as Hmono. lia.
  - intros target_uV code. apply selector_for_smallest.
  - exists (ladder_uV rail (n_voltages rail - 1)).
    split; [apply driver_rail_voltage_of; [exact Hin | lia] |].
    intros target_uV. rewrite selector_for_fails. split.
    + intros Hgt code Hc Habove.
      apply driver_rail_at_or_above in Habove; [| exact Hin | exact Hc].
      destruct (Z.eq_dec code (n_voltages rail - 1)) as [-> | Hne]; [lia |].
      pose proof (ladder_uV_strict_mono rail code (n_voltages rail - 1) Hin)
        as Hmono. lia.
    + intros Hnone.
      destruct (Z.lt_ge_cases (ladder_uV rail (n_voltages rail - 1)) target_uV)
        as [Hlt | Hge]; [exact Hlt | exfalso].
      apply (Hnone (n_voltages rail - 1)); [lia |].
      apply driver_rail_at_or_above; [exact Hin | lia | exact Hge].
Qed.

Lemma selector_for_round_trip_witness :
  (forall code, 0 <= code < n_voltages ldob ->
     exists uV, voltage_of ldob code = Ok uV /\
                selector_for ldob uV = Ok code) /\
  (forall target_uV code,
     selector_for ldob target_uV = Ok code <->
     smallest_code_at_or_above ldob target_uV code) /\
  (exists max_uV,
     voltage_of ldob (n_voltages ldob - 1) = Ok max_uV /\
     forall target_uV,
       max_uV < target_uV <-> selector_for ldob target_uV = OutOfRange).
Proof.
  apply (selector_for_round_trip ldob).
  right. right. right. left. reflexivity.
Defined.

Example ldob_round_trip_63 :
  voltage_of ldob 63 = Ok 2006667 /\ selector_for ldob 2006667 = Ok 63.
Proof. split; reflexivity. Qed.

Example aldo_selector_for_between : selector_for aldo 1700001 = Ok 2.
Proof. reflexivity. Qed.

(** ** Masked register updates *)

(** The word that an update writes: inside the mask it is the new value. *)
Lemma update_word_field (orig mask val : Z) :
  Z.land (Z.lor (Z.land orig (Z.lnot mask)) (Z.land val mask)) mask =
  Z.land val mask.
Proof.
  apply Z.bits_inj'. intros n Hn.
  rewrite !Z.land_spec, Z.lor_spec, !Z.land_spec, Z.lnot_spec by exact Hn.
  destruct (Z.testbit orig n), (Z.testbit mask n), (Z.testbit val n);
    reflexivity.
Qed.

(** Outside the mask every bit keeps its old value. *)
Lemma update_word_frame (orig mask val i : Z) :
  Z.testbit mask i = false ->
  Z.testbit (Z.lor (Z.land orig (Z.lnot mask)) (Z.land val mask)) i =
  Z.testbit orig i.
Proof.
  intros Hout. destruct (Z.neg_nonneg_cases i) as [Hneg | Hpos].
  - rewrite !Z.testbit_neg_r by exact Hneg. reflexivity.
  - rewrite Z.lor_spec, !Z.land_spec, Z.lnot_spec, Hout by exact Hpos.
    destruct (Z.testbit orig i), (Z.testbit val i); reflexivity.
Qed.

(** A bit of a mask disjoint from [mask] lies outside [mask]. *)
Lemma disjoint_mask_bit (mask other i : Z) :
  Z.land mask other = 0 -> Z.testbit other i = true ->
  Z.testbit mask i = false.
Proof.
  intros Hdisj Hbit.
  assert (Hand : Z.testbit (Z.land mask other) i = false)
    by (rewrite Hdisj; apply Z.bits_0).
  rewrite Z.land_spec, Hbit, andb_true_r in Hand. exact Hand.
Qed.

(** An update either fails and changes nothing, or replaces the word of
    [reg]. *)
Lemma regmap_update_bits_cases (map : gmap Z Z) (reg mask val : Z) :
  (map !! reg = None /\
   regmap_update_bits map reg mask val = (- EIO, map)) \/
  (exists orig, map !! reg = Some orig /\
     regmap_update_bits map reg mask val =
     (0, <[reg := Z.lor (Z.land orig (Z.lnot mask)) (Z.land val mask)]> map)).
Proof.
  unfold regmap_update_bits. destruct (map !! reg) as [orig |] eqn:Hreg.
  - right. exists orig. split; reflexivity.
  - left. split; reflexivity.
Qed.

(** Bits outside the mask, in any register, read the same after an update. *)
Lemma regmap_update_bits_frame (map : gmap Z Z) (reg mask val reg' i : Z) :
  Z.testbit mask i = false ->
  regmap_test_bit (snd (regmap_update_bits map reg mask val)) reg' i =
  regmap_test_bit map reg' i.
Proof.
  intros Hout. unfold regmap_test_bit, regmap_read.
  destruct (regmap_update_bits_cases map reg mask val)
    as [(_ & ->) | (orig & Hreg & ->)]; [reflexivity |].
  cbn [snd]. destruct (Z.eq_dec reg reg') as [<- | Hne].
  - rewrite lookup_insert_eq, Hreg. cbn.
    rewrite update_word_frame by exact Hout. reflexivity.
  - rewrite lookup_insert_ne by exact Hne. reflexivity.
Qed.

(** A 32-bit word stays one under a 32-bit mask. *)
Lemma update_word_is_u32 (orig mask val : Z) :
  is_u32 orig -> is_u32 mask ->
  is_u32 (Z.lor (Z.land orig (Z.lnot mask)) (Z.land val mask)).
Proof.
  unfold is_u32, modulus, wordsize. intros Ho Hm.
  assert (Hlow : forall x, 0 <= x < 2 ^ 32 ->
            forall n, 32 <= n -> Z.testbit x n = false).
  { intros x Hx n Hn. rewrite <- (Z.mod_small x (2 ^ 32)) by exact Hx.
    apply Z.mod_pow2_bits_high. lia. }
  assert (Hnn : 0 <= Z.lor (Z.land orig (Z.lnot mask)) (Z.land val mask)).
  { apply Z.lor_nonneg. split; apply Z.land_nonneg; lia. }
  set (word := Z.lor (Z.land orig (Z.lnot mask)) (Z.land val mask)) in *.
  split; [exact Hnn |].
  destruct (Z.eq_dec word 0) as [-> | Hnz]; [lia |].
  apply Z.log2_lt_pow2; [lia |].
  destruct (Z.lt_ge_cases (Z.log2 word) 32) as [Hlt | Hge];
    [exact Hlt | exfalso].
  assert (Hbit : Z.testbit word (Z.log2 word) = true)
    by (apply Z.bit_log2; lia).
  unfold word in Hbit at 1.
  rewrite Z.lor_spec, !Z.land_spec in Hbit.
  rewrite (Hlow orig Ho _ Hge), (Hlow mask Hm _ Hge) in Hbit.
  rewrite andb_false_r in Hbit. discriminate Hbit.
Qed.

(** C8: for any two rail descriptors whose selector and enable masks occupy
    disjoint bits, a masked read-modify-write of a field of one rail leaves
    every bit of every field of the other rail as it was, in whichever
    register it lies; and any two different descriptors of one set of the
    driver share their selector register and have disjoint fields. *)
Theorem disjoint_fields_unchanged :
  (forall (d1 d2 : regulator_desc) (map : gmap Z Z) (f1 f2 : Z * Z)
          (val i : Z),
     fields_disjoint d1 d2 ->
     In f1 (rail_fields d1) -> In f2 (rail_fields d2) ->
     Z.testbit (snd f2) i = true ->
     regmap_test_bit
       (snd (regmap_update_bits map (fst f1) (snd f1) val)) (fst f2) i =
     regmap_test_bit map (fst f2) i) /\
  (forall (set : list regulator_desc) (d1 d2 : regulator_desc),
     In set [sun20i_d1_analog_ldo_descs; sun20i_d1_system_ldo_descs] ->
     In d1 set -> In d2 set -> d1 <> d2 ->
     vsel_reg d1 = vsel_reg d2 /\ fields_disjoint d1 d2).
Proof.
  split.
  - intros d1 d2 map f1 f2 val i Hdisj Hf1 Hf2 Hbit.
    apply regmap_update_bits_frame.
    apply (disjoint_mask_bit (snd f1) (snd f2) i); [| exact Hbit].
    apply Hdisj; assumption.
  - intros set d1 d2 Hset H1 H2 Hne.
    assert (Hpairs : (d1 = aldo /\ d2 = hpldo) \/ (d1 = hpldo /\ d2 = aldo) \/
                     (d1 = ldoa /\ d2 = ldob) \/ (d1 = ldob /\ d2 = ldoa)).
    { cbn [In] in Hset. destruct Hset as [<- | [<- | []]].
      - apply In_analog_descs in H1, H2.
        destruct H1 as [-> | ->], H2 as [-> | ->]; tauto.
      - apply In_system_descs in H1, H2.
        destruct H1 as [-> | ->], H2 as [-> | ->]; tauto. }
    destruct Hpairs as [[-> ->] | [[-> ->] | [[-> ->] | [-> ->]]]];
      (split; [reflexivity |]);
      intros f1 f2 Hf1 Hf2; cbn [rail_fields In] in Hf1, Hf2;
      destruct Hf1 as [<- | [<- | []]], Hf2 as [<- | [<- | []]];
      reflexivity.
Qed.

Lemma disjoint_fields_unchanged_witness :
  regmap_test_bit
    (snd (regmap_update_bits {[ SUN20I_POWER_REG := 0x80000519 ]}
            (vsel_reg hpldo) (vsel_mask hpldo) 0x300))
    (enable_reg aldo) 31 =
  regmap_test_bit {[ SUN20I_POWER_REG := 0x80000519 ]} (enable_reg aldo) 31.
Proof.
  destruct disjoint_fields_unchanged as [Hframe Hdriver].
  apply (Hframe hpldo aldo {[ SUN20I_POWER_REG := 0x80000519 ]}
           (vsel_reg hpldo, vsel_mask hpldo)
           (enable_reg aldo, enable_mask aldo) 0x300 31).
  - apply (Hdriver sun20i_d1_analog_ldo_descs hpldo aldo).
    + left. reflexivity.
    + right. left. reflexivity.
    + left. reflexivity.
    + discriminate.
  - left. reflexivity.
  - right. left. reflexivity.
  - reflexivity.
Defined.

Example hpldo_update_keeps_aldo :
  snd (regmap_update_bits {[ SUN20I_POWER_REG := 0x80005519 ]}
         (vsel_reg hpldo) (vsel_mask hpldo) 0x300)
  = {[ SUN20I_POWER_REG := 0x80005319 ]}.
Proof. vm_compute. reflexivity. Qed.

(** ** Calibration hook *)

Lemma GENMASK_7_0 : GENMASK 7 0 = Z.ones 8.
Proof. reflexivity. Qed.

(** C6: when the read of the calibration cell succeeds, the hook programs
    into bits 7..0 of the power register a trim that is a function of the
    byte read: the default 0x19 (the 900 mV point) for a zero byte, the byte
    itself otherwise; the other bits of the register keep their value. *)
Theorem calibration_trim
    (dev : device) (regmap : gmap Z Z) (bg_trim orig : Z) :
  nvmem_cell_read_u8 dev "bg_trim" = (0, bg_trim) ->
  0 <= bg_trim < 256 ->
  regmap !! SUN20I_POWER_REG = Some orig ->
  sun20i_d1_analog_ldos_init dev regmap =
    regmap_update_bits regmap SUN20I_POWER_REG (GENMASK 7 0)
      (if bg_trim =? 0 then 0x19 else bg_trim) /\
  exists word,
    sun20i_d1_analog_ldos_init dev regmap =
      (0, <[SUN20I_POWER_REG := word]> regmap) /\
    (bg_trim = 0 -> Z.land word (GENMASK 7 0) = 0x19) /\
    (bg_trim <> 0 -> Z.land word (GENMASK 7 0) = bg_trim) /\
    (forall i, Z.testbit (GENMASK 7 0) i = false ->
               Z.testbit word i = Z.testbit orig i).
Proof.
  intros Hread Hbyte Hreg.
  unfold sun20i_d1_analog_ldos_init. rewrite Hread. cbn [Z.eqb negb].
  unfold bg_trim_value. split; [reflexivity |].
  destruct (regmap_update_bits_cases regmap SUN20I_POWER_REG (GENMASK 7 0)
              (if bg_trim =? 0 then 25 else bg_trim))
    as [(Hnone & _) | (orig' & Hreg' & Hupd)]; [congruence |].
  rewrite Hreg in Hreg'. injection Hreg' as <-.
  eexists. split; [exact Hupd |].
  split; [| split].
  - intros ->. rewrite update_word_field. reflexivity.
  - intros Hnz. rewrite update_word_field, GENMASK_7_0, Z.land_ones by lia.
    destruct (Z.eqb_spec bg_trim 0); [contradiction |].
    apply Z.mod_small. lia.
  - intros i Hout. apply update_word_frame. exact Hout.
Qed.

Lemma calibration_trim_witness :
  sun20i_d1_analog_ldos_init (analog_dev 0 0)
    {[ SUN20I_POWER_REG := 0x80000000 ]} =
    regmap_update_bits {[ SUN20I_POWER_REG := 0x80000000 ]}
      SUN20I_POWER_REG (GENMASK 7 0) (if 0 =? 0 then 0x19 else 0) /\
  exists word,
    sun20i_d1_analog_ldos_init (analog_dev 0 0)
      {[ SUN20I_POWER_REG := 0x80000000 ]} =
      (0, <[SUN20I_POWER_REG := word]> {[ SUN20I_POWER_REG := 0x80000000 ]}) /\
    (0 = 0 -> Z.land word (GENMASK 7 0) = 0x19) /\
    (0 <> 0 -> Z.land word (GENMASK 7 0) = 0) /\
    (forall i, Z.testbit (GENMASK 7 0) i = false ->
               Z.testbit word i = Z.testbit 0x80000000 i).
Proof.
  apply (calibration_trim (analog_dev 0 0)
           {[ SUN20I_POWER_REG := 0x80000000 ]} 0 0x80000000).
  - reflexivity.
  - lia.
  - reflexivity.
Defined.

Example calibration_unprovisioned :
  sun20i_d1_analog_ldos_init (analog_dev 0 0)
    {[ SUN20I_POWER_REG := 0x80000000 ]} =
  (0, {[ SUN20I_POWER_REG := 0x80000019 ]}).
Proof. vm_compute. reflexivity. Qed.

Example calibration_provisioned :
  sun20i_d1_analog_ldos_init (analog_dev 0 0x1c)
    {[ SUN20I_POWER_REG := 0x80000000 ]} =
  (0, {[ SUN20I_POWER_REG := 0x8000001c ]}).
Proof. vm_compute. reflexivity. Qed.

(** ** Bring-up *)

(** Whatever the hook, a failing hook ends the probe with its error and with
    no rail registered. *)
Lemma probe_init_failure
    (dev : device) (data : sun20i_regulator_data) (regmap regmap' : gmap Z Z)
    (f : device -> gmap Z Z -> Z * gmap Z Z) (ret : Z) :
  of_device_get_match_data dev = Some data ->
  sun20i_regulator_get_regmap dev = inr regmap ->
  init data = Some f ->
  f dev regmap = (ret, regmap') ->
  ret <> 0 ->
  sun20i_regulator_probe dev =
  {| probe_ret := ret; probe_rdevs := []; probe_regmap := Some regmap' |}.
Proof.
  intros Hdata Hmap Hinit Hf Hret. unfold sun20i_regulator_probe.
  rewrite Hdata, Hmap, Hinit, Hf.
  destruct (Z.eqb_spec ret 0); [contradiction | reflexivity].
Qed.

(** The registration loop registers the descriptors in order as long as the
    regulator core accepts them. *)
Lemma register_descs_all (dev : device) (todo rdevs : list regulator_desc) :
  (forall done desc, devm_regulator_register dev done desc = 0) ->
  register_descs dev todo rdevs = (0, rdevs ++ todo).
Proof.
  intros Hok. revert rdevs.
  induction todo as [| desc rest IH]; intros rdevs; cbn [register_descs].
  - rewrite app_nil_r. reflexivity.
  - rewrite Hok. cbn [Z.eqb negb]. rewrite IH, <- app_assoc. reflexivity.
Qed.

(** C7: when the read of the calibration cell fails, the probe of the analog
    LDO set returns that error with no rail registered and the registers
    untouched: bring-up is all or nothing. *)
Theorem calibration_failure_aborts_probe
    (dev : device) (regmap : gmap Z Z) (ret bg_trim : Z) :
  compatible dev = "allwinner,sun20i-d1-analog-ldos" ->
  sun20i_regulator_get_regmap dev = inr regmap ->
  nvmem_cell_read_u8 dev "bg_trim" = (ret, bg_trim) ->
  ret <> 0 ->
  sun20i_d1_analog_ldos_init dev regmap = (ret, regmap) /\
  sun20i_regulator_probe dev =
  {| probe_ret := ret; probe_rdevs := []; probe_regmap := Some regmap |}.
Proof.
  intros Hcompat Hmap Hread Hret.
  assert (Hinit : sun20i_d1_analog_ldos_init dev regmap = (ret, regmap)).
  { unfold sun20i_d1_analog_ldos_init. rewrite Hread.
    destruct (Z.eqb_spec ret 0); [contradiction | reflexivity]. }
  split; [exact Hinit |].
  apply (probe_init_failure dev sun20i_d1_analog_ldos regmap regmap
           sun20i_d1_analog_ldos_init ret).
  - unfold of_device_get_match_data. rewrite Hcompat. reflexivity.
  - exact Hmap.
  - reflexivity.
  - exact Hinit.
  - exact Hret.
Qed.

Lemma calibration_failure_aborts_probe_witness :
  sun20i_d1_analog_ldos_init (analog_dev (-2) 0)
    {[ SUN20I_POWER_REG := 0x80000000 ]} =
    (-2, {[ SUN20I_POWER_REG := 0x80000000 ]}) /\
  sun20i_regulator_probe (analog_dev (-2) 0) =
  {| probe_ret := -2; probe_rdevs := [];
     probe_regmap := Some {[ SUN20I_POWER_REG := 0x80000000 ]} |}.
Proof.
  apply (calibration_failure_aborts_probe (analog_dev (-2) 0)
           {[ SUN20I_POWER_REG := 0x80000000 ]} (-2) 0).
  - reflexivity.
  - reflexivity.
  - reflexivity.
  - lia.
Defined.

(** With a readable cell the same device brings up both rails. *)
Example probe_analog_success :
  sun20i_regulator_probe (analog_dev 0 0) =
  {| probe_ret := 0; probe_rdevs := [aldo; hpldo];
     probe_regmap := Some {[ SUN20I_POWER_REG := 0x80000019 ]} |}.
Proof. vm_compute. reflexivity. Qed.

(** ** Configuration surface *)

(** C9: the match table defines exactly two rail sets.  The analog set has
    two rails with integer-step ladders of 50000 uV per step and hardware
    enable bits, all selector and enable fields in the power register; the
    system set has two rails with fractional-step ladders of 32 and 64 codes,
    both selector fields in the system LDO control register, a different
    register, and no enable field or enable operation on either rail. *)
Theorem two_rail_set_variants :
  map snd sun20i_regulator_of_match =
    [sun20i_d1_analog_ldos; sun20i_d1_system_ldos] /\
  (ndescs sun20i_d1_analog_ldos = 2 /\
   length (descs sun20i_d1_analog_ldos) = 2%nat /\
   Forall (fun desc =>
       list_voltage (ops desc) = Some regulator_list_voltage_linear_fn /\
       uV_step desc = 50000 /\
       enable (ops desc) = Some regulator_enable_regmap_fn /\
       disable (ops desc) = Some regulator_disable_regmap_fn /\
       enable_mask desc <> 0 /\
       vsel_reg desc = SUN20I_POWER_REG /\
       enable_reg desc = SUN20I_POWER_REG)
     (descs sun20i_d1_analog_ldos)) /\
  (ndescs sun20i_d1_system_ldos = 2 /\
   map n_voltages (descs sun20i_d1_system_ldos) = [32; 64] /\
   Forall (fun desc =>
       list_voltage (ops desc) = Some sun20i_d1_system_ldo_list_voltage_fn /\
       uV_step desc = 13333 /\
       enable (ops desc) = None /\
       disable (ops desc) = None /\
       is_enabled (ops desc) = None /\
       enable_mask desc = 0 /\
       vsel_reg desc = SUN20I_SYS_LDO_CTRL_REG)
     (descs sun20i_d1_system_ldos)) /\
  SUN20I_SYS_LDO_CTRL_REG <> SUN20I_POWER_REG.
Proof.
  split; [reflexivity |]. split; [| split].
  - split; [reflexivity | split; [reflexivity |]].
    repeat constructor; discriminate.
  - split; [reflexivity | split; [reflexivity |]].
    repeat constructor.
  - discriminate.
Qed.

(** * Further properties of the ladder arithmetic *)

(** Reading [x mod 2^32] as an [int] gives a value of the [int] range that
    is congruent to [x]. *)
Lemma to_int_u32 (x : Z) :
  - half_modulus <= to_int (u32 x) < half_modulus /\
  (to_int (u32 x) - x) mod modulus = 0.
Proof.
  unfold u32. pose proof (Z.mod_pos_bound x modulus eq_refl) as Hb.
  pose proof (Z.mod_eq x modulus ltac:(discriminate)) as Heq.
  unfold to_int. rewrite modulus_eq, half_modulus_eq in *.
  case_cmp; (split; [lia |]).
  - replace (x mod 4294967296 - x) with (- (x / 4294967296) * 4294967296)
      by lia.
    apply Z.mod_mul. discriminate.
  - replace (x mod 4294967296 - 4294967296 - x)
      with ((- (x / 4294967296) - 1) * 4294967296) by lia.
    apply Z.mod_mul. discriminate.
Qed.

(** Whatever the descriptor, the result for a selector in range is a C [int]
    congruent modulo 2^32 to the linear value plus a third of the (wrapped)
    numerator [selector + 1 + min_uV % 4]: a voltage that does not fit comes
    back wrapped, not saturated and not as an error of its own. *)
Theorem system_ldo_list_voltage_wraps (desc : regulator_desc) (selector : Z) :
  0 <= selector < n_voltages desc ->
  - half_modulus <= sun20i_d1_system_ldo_list_voltage desc selector
    < half_modulus /\
  (sun20i_d1_system_ldo_list_voltage desc selector
   - (min_uV desc + uV_step desc * selector
      + u32 (selector + 1 + min_uV desc mod 4) / 3)) mod modulus = 0.
Proof.
  intros Hsel. unfold sun20i_d1_system_ldo_list_voltage.
  case_cmp; [lia |].
  set (q := u32 (selector + 1 + min_uV desc mod 4) / 3).
  assert (Hsum : u32 (u32 (min_uV desc + u32 (uV_step desc * selector)) + q)
                 = u32 (min_uV desc + uV_step desc * selector + q)).
  { unfold u32. rewrite Z.add_mod_idemp_r by discriminate.
    rewrite Z.add_mod_idemp_l by discriminate. reflexivity. }
  rewrite Hsum. apply to_int_u32.
Qed.

Lemma system_ldo_list_voltage_wraps_witness :
  - half_modulus <= sun20i_d1_system_ldo_list_voltage ldoa 31 < half_modulus /\
  (sun20i_d1_system_ldo_list_voltage ldoa 31
   - (min_uV ldoa + uV_step ldoa * 31
      + u32 (31 + 1 + min_uV ldoa mod 4) / 3)) mod modulus = 0.
Proof.
  apply (system_ldo_list_voltage_wraps ldoa 31). cbn. lia.
Defined.

(** Where a selector fits, every smaller one does. *)
Lemma fits_int_down (desc : regulator_desc) (selector1 selector2 : Z) :
  0 <= selector1 <= selector2 ->
  fits_int desc selector2 -> fits_int desc selector1.
Proof.
  intros Hsel (Hmin & Hstep & Hnum & Hfit).
  assert (Hcorr : correction desc selector1 <= correction desc selector2)
    by (unfold correction; apply Z.div_le_mono; lia).
  repeat split; try assumption; [lia | nia].
Qed.

Lemma fits_int_exact (desc : regulator_desc) (selector : Z) :
  0 <= selector < n_voltages desc ->
  fits_int desc selector ->
  sun20i_d1_system_ldo_list_voltage desc selector =
  min_uV desc + uV_step desc * selector + correction desc selector.
Proof.
  intros Hsel (Hmin & Hstep & Hnum & Hfit).
  apply system_ldo_list_voltage_exact; assumption.
Qed.

(** From one code to the next the voltage rises by [uV_step], and by one
    microvolt more exactly when the numerator of the next correction is a
    multiple of 3. *)
Theorem system_ldo_step (desc : regulator_desc) (selector : Z) :
  0 <= selector -> selector + 1 < n_voltages desc ->
  fits_int desc (selector + 1) ->
  sun20i_d1_system_ldo_list_voltage desc (selector + 1)
  - sun20i_d1_system_ldo_list_voltage desc selector =
  uV_step desc
  + (if (selector + 2 + min_uV desc mod 4) mod 3 =? 0 then 1 else 0).
Proof.
  intros Hsel Hnext Hfit.
  pose proof (fits_int_down desc selector (selector + 1) ltac:(lia) Hfit)
    as Hfit0.
  rewrite (fits_int_exact desc (selector + 1)) by (trivial; lia).
  rewrite (fits_int_exact desc selector) by (trivial; lia).
  unfold correction.
  set (m := min_uV desc mod 4).
  replace (selector + 1 + 1 + m) with (selector + 2 + m) by lia.
  replace (selector + 1 + m) with (selector + 2 + m - 1) by lia.
  set (a := selector + 2 + m).
  case_cmp; Z.div_mod_to_equations; lia.
Qed.

Lemma system_ldo_step_witness :
  sun20i_d1_system_ldo_list_voltage ldoa (1 + 1)
  - sun20i_d1_system_ldo_list_voltage ldoa 1 =
  uV_step ldoa + (if (1 + 2 + min_uV ldoa mod 4) mod 3 =? 0 then 1 else 0).
Proof.
  apply (system_ldo_step ldoa 1).
  - lia.
  - cbn. lia.
  - vm_compute. repeat split; discriminate.
Defined.

(** Three codes further the voltage is exactly [3 * uV_step + 1] higher:
    40000 uV on the ladders of the driver. *)
Theorem system_ldo_three_steps (desc : regulator_desc) (selector : Z) :
  0 <= selector -> selector + 3 < n_voltages desc ->
  fits_int desc (selector + 3) ->
  sun20i_d1_system_ldo_list_voltage desc (selector + 3) =
  sun20i_d1_system_ldo_list_voltage desc selector + 3 * uV_step desc + 1.
Proof.
  intros Hsel Hnext Hfit.
  pose proof (fits_int_down desc selector (selector + 3) ltac:(lia) Hfit)
    as Hfit0.
  rewrite (fits_int_exact desc (selector + 3)) by (trivial; lia).
  rewrite (fits_int_exact desc selector) by (trivial; lia).
  unfold correction.
  replace (selector + 3 + 1 + min_uV desc mod 4)
    with (selector + 1 + min_uV desc mod 4 + 1 * 3) by lia.
  rewrite Z.div_add by discriminate. lia.
Qed.

Lemma system_ldo_three_steps_witness :
  sun20i_d1_system_ldo_list_voltage ldob (7 + 3) =
  sun20i_d1_system_ldo_list_voltage ldob 7 + 3 * uV_step ldob + 1.
Proof.
  apply (system_ldo_three_steps ldob 7).
  - lia.
  - cbn. lia.
  - vm_compute. repeat split; discriminate.
Defined.

(** On any descriptor with a positive step the function is strictly
    increasing over the selectors in range, as far as the voltages fit. *)
Theorem system_ldo_strictly_increasing
    (desc : regulator_desc) (selector1 selector2 : Z) :
  0 <= selector1 -> selector1 < selector2 -> selector2 < n_voltages desc ->
  0 < uV_step desc ->
  fits_int desc selector2 ->
  sun20i_d1_system_ldo_list_voltage desc selector1 <
  sun20i_d1_system_ldo_list_voltage desc selector2.
Proof.
  intros H1 H12 H2 Hstep Hfit.
  pose proof (fits_int_down desc selector1 selector2 ltac:(lia) Hfit)
    as Hfit1.
  rewrite (fits_int_exact desc selector1) by (trivial; lia).
  rewrite (fits_int_exact desc selector2) by (trivial; lia).
  assert (Hcorr : correction desc selector1 <= correction desc selector2)
    by (unfold correction; apply Z.div_le_mono; lia).
  nia.
Qed.

Lemma system_ldo_strictly_increasing_witness :
  sun20i_d1_system_ldo_list_voltage ldob 0 <
  sun20i_d1_system_ldo_list_voltage ldob 63.
Proof.
  apply (system_ldo_strictly_increasing ldob 0 63).
  - lia.
  - lia.
  - cbn. lia.
  - cbn. lia.
  - vm_compute. repeat split; discriminate.
Defined.

Lemma ideal_ladder_uV_thirds (desc : regulator_desc) (selector : Z) :
  (ideal_ladder_uV desc selector ==
   (3 * min_uV desc + min_uV desc mod 4
    + (3 * uV_step desc + 1) * selector) # 3)%Q.
Proof.
  unfold ideal_ladder_uV, Qeq, Qplus, Qmult, inject_Z. cbn [Qnum Qden].
  set (m := min_uV desc mod 4). lia.
Qed.

(** On any descriptor, as far as the voltage fits, the function returns the
    ideal ladder rounded to the nearest integer: it is never off by half a
    microvolt or more, at any selector. *)
Theorem system_ldo_rounds_ideal_ladder
    (desc : regulator_desc) (selector : Z) :
  0 <= selector < n_voltages desc ->
  fits_int desc selector ->
  rounds_to (ideal_ladder_uV desc selector)
    (sun20i_d1_system_ldo_list_voltage desc selector).
Proof.
  intros Hsel Hfit.
  rewrite (fits_int_exact desc selector Hsel Hfit).
  apply (rounds_to_thirds
           (3 * min_uV desc + min_uV desc mod 4
            + (3 * uV_step desc + 1) * selector)).
  - apply ideal_ladder_uV_thirds.
  - unfold correction. set (m := min_uV desc mod 4).
    pose proof (Z.div_mod (selector + 1 + m) 3 ltac:(lia)) as Hdm.
    pose proof (Z.mod_pos_bound (selector + 1 + m) 3 ltac:(lia)) as Hr.
    lia.
Qed.

Lemma system_ldo_rounds_ideal_ladder_witness :
  rounds_to (ideal_ladder_uV ldoa 17)
    (sun20i_d1_system_ldo_list_voltage ldoa 17).
Proof.
  apply (system_ldo_rounds_ideal_ladder ldoa 17).
  - cbn. lia.
  - vm_compute. repeat split; discriminate.
Defined.

Lemma ldob_ladder_correctly_rounded_witness :
  exists uV, voltage_of ldob 62 = Ok uV /\ rounds_to (ldob_true_uV 62) uV.
Proof.
  apply (ldob_ladder_correctly_rounded 62). lia.
Defined.

(** * Further properties of the calibration hook *)

(** An update leaves every other register as it was. *)
Lemma regmap_update_bits_other (map : gmap Z Z) (reg mask val reg' : Z) :
  reg' <> reg ->
  snd (regmap_update_bits map reg mask val) !! reg' = map !! reg'.
Proof.
  intros Hne.
  destruct (regmap_update_bits_cases map reg mask val)
    as [(_ & ->) | (orig & _ & ->)]; [reflexivity |].
  cbn [snd]. apply lookup_insert_ne. congruence.
Qed.

(** Writing the same value into the same field again changes nothing. *)
Lemma update_word_idempotent (orig mask val : Z) :
  let word := Z.lor (Z.land orig (Z.lnot mask)) (Z.land val mask) in
  Z.lor (Z.land word (Z.lnot mask)) (Z.land val mask) = word.
Proof.
  cbn zeta. apply Z.bits_inj'. intros n Hn.
  rewrite !Z.lor_spec, !Z.land_spec, !Z.lor_spec, !Z.land_spec, !Z.lnot_spec
    by exact Hn.
  destruct (Z.testbit orig n), (Z.testbit mask n), (Z.testbit val n);
    reflexivity.
Qed.

Lemma regmap_update_bits_idempotent (map : gmap Z Z) (reg mask val : Z) :
  regmap_update_bits (snd (regmap_update_bits map reg mask val)) reg mask val
  = regmap_update_bits map reg mask val.
Proof.
  destruct (regmap_update_bits_cases map reg mask val)
    as [(Hnone & Hupd) | (orig & Hreg & Hupd)]; rewrite Hupd; cbn [snd].
  - exact Hupd.
  - unfold regmap_update_bits. rewrite lookup_insert_eq.
    cbn zeta. rewrite update_word_idempotent, insert_insert_eq. reflexivity.
Qed.

Lemma GENMASK_7_0_outside (i : Z) :
  ~ (0 <= i <= 7) -> Z.testbit (GENMASK 7 0) i = false.
Proof.
  intros Hout. rewrite GENMASK_7_0.
  destruct (Z.neg_nonneg_cases i) as [Hneg | Hpos].
  - apply Z.testbit_neg_r. exact Hneg.
  - apply Z.ones_spec_high. lia.
Qed.

Lemma analog_ldos_init_frame (dev : device) (regmap : gmap Z Z) (reg i : Z) :
  ~ (reg = SUN20I_POWER_REG /\ 0 <= i <= 7) ->
  regmap_test_bit (snd (sun20i_d1_analog_ldos_init dev regmap)) reg i =
  regmap_test_bit regmap reg i.
Proof.
  intros Hout. unfold sun20i_d1_analog_ldos_init.
  destruct (nvmem_cell_read_u8 dev "bg_trim") as [ret bg_trim].
  destruct (negb (ret =? 0)); [reflexivity |].
  destruct (Z.eq_dec reg SUN20I_POWER_REG) as [-> | Hne].
  - apply regmap_update_bits_frame. apply GENMASK_7_0_outside. tauto.
  - unfold regmap_test_bit, regmap_read.
    rewrite regmap_update_bits_other by exact Hne. reflexivity.
Qed.

(** The hook changes nothing but bits 7..0 of the power register: whether
    the read of the cell succeeds or not, every other bit of every register
    reads the same afterwards. *)
Theorem calibration_touches_only_trim
    (dev : device) (regmap : gmap Z Z) (reg i : Z) :
  ~ (reg = SUN20I_POWER_REG /\ 0 <= i <= 7) ->
  regmap_test_bit (snd (sun20i_d1_analog_ldos_init dev regmap)) reg i =
  regmap_test_bit regmap reg i.
Proof. apply analog_ldos_init_frame. Qed.

Lemma calibration_touches_only_trim_witness :
  regmap_test_bit
    (snd (sun20i_d1_analog_ldos_init (analog_dev 0 0x1c)
            {[ SUN20I_POWER_REG := 0x80005300 ]})) SUN20I_POWER_REG 12 =
  regmap_test_bit {[ SUN20I_POWER_REG := 0x80005300 ]} SUN20I_POWER_REG 12.
Proof.
  apply (calibration_touches_only_trim (analog_dev 0 0x1c)
           {[ SUN20I_POWER_REG := 0x80005300 ]} SUN20I_POWER_REG 12).
  intros [_ Hi]. lia.
Defined.

(** Running the hook again gives the same result and the same registers:
    the trim is written anew with the value it already has. *)
Theorem calibration_idempotent (dev : device) (regmap : gmap Z Z) :
  sun20i_d1_analog_ldos_init dev
    (snd (sun20i_d1_analog_ldos_init dev regmap)) =
  sun20i_d1_analog_ldos_init dev regmap.
Proof.
  unfold sun20i_d1_analog_ldos_init.
  destruct (nvmem_cell_read_u8 dev "bg_trim") as [ret bg_trim].
  destruct (negb (ret =? 0)); [reflexivity |].
  apply regmap_update_bits_idempotent.
Qed.

(** * Further properties of the probe routine *)

(** The match data of a device is that of the table entry with its
    compatible string. *)
Lemma match_data_cases (dev : device) (data : sun20i_regulator_data) :
  of_device_get_match_data dev = Some data ->
  (compatible dev = "allwinner,sun20i-d1-analog-ldos" /\
   data = sun20i_d1_analog_ldos) \/
  (compatible dev = "allwinner,sun20i-d1-system-ldos" /\
   data = sun20i_d1_system_ldos).
Proof.
  unfold of_device_get_match_data, sun20i_regulator_of_match.
  cbn [List.find fst].
  destruct (String.eqb_spec "allwinner,sun20i-d1-analog-ldos"
              (compatible dev)) as [Ha | Ha].
  - cbn. intros [= <-]. left. split; [symmetry; exact Ha | reflexivity].
  - destruct (String.eqb_spec "allwinner,sun20i-d1-system-ldos"
                (compatible dev)) as [Hs | Hs].
    + cbn. intros [= <-]. right. split; [symmetry; exact Hs | reflexivity].
    + cbn. discriminate.
Qed.

Lemma match_data_none (dev : device) :
  compatible dev <> "allwinner,sun20i-d1-analog-ldos" ->
  compatible dev <> "allwinner,sun20i-d1-system-ldos" ->
  of_device_get_match_data dev = None.
Proof.
  intros Ha Hs.
  destruct (of_device_get_match_data dev) as [data |] eqn:Hdata;
    [| reflexivity].
  apply match_data_cases in Hdata. tauto.
Qed.

(** In both sets [ndescs] is the length of [descs], which is not empty. *)
Lemma match_data_descs (dev : device) (data : sun20i_regulator_data) :
  of_device_get_match_data dev = Some data ->
  firstn (Z.to_nat (ndescs data)) (descs data) = descs data /\
  descs data <> [] /\
  In (descs data) [sun20i_d1_analog_ldo_descs; sun20i_d1_system_ldo_descs].
Proof.
  intros Hdata. apply match_data_cases in Hdata.
  destruct Hdata as [[_ ->] | [_ ->]];
    (split; [reflexivity | split; [discriminate |]]).
  - left. reflexivity.
  - right. left. reflexivity.
Qed.

(** What the registration loop returns: zero with every descriptor
    registered, or the error of the first descriptor that the regulator core
    refuses, with the descriptors before it registered and none after it. *)
Lemma register_descs_result (dev : device) (todo : list regulator_desc) :
  forall rdevs,
    (register_descs dev todo rdevs = (0, rdevs ++ todo)) \/
    (exists err pre desc post,
       todo = pre ++ desc :: post /\ err <> 0 /\
       devm_regulator_register dev (rdevs ++ pre) desc = err /\
       register_descs dev todo rdevs = (err, rdevs ++ pre)).
Proof.
  induction todo as [| desc rest IH]; intros rdevs; cbn [register_descs].
  - left. rewrite app_nil_r. reflexivity.
  - destruct (Z.eqb_spec (devm_regulator_register dev rdevs desc) 0)
      as [Hok | Herr]; cbn [negb].
    + destruct (IH (rdevs ++ [desc]))
        as [Hall | (err & pre & d & post & -> & Hne & Hreg & Hres)].
      * left. rewrite Hall, <- app_assoc. reflexivity.
      * right. exists err, (desc :: pre), d, post.
        rewrite <- app_assoc in Hreg, Hres.
        split; [reflexivity | split; [exact Hne | split; assumption]].
    + right. exists (devm_regulator_register dev rdevs desc), [], desc, rest.
      rewrite app_nil_r.
      split; [reflexivity | split; [exact Herr | split; reflexivity]].
Qed.

(** A device that the match table does not know is refused with [-EINVAL]
    before anything else happens: no register map is looked up, no rail is
    registered. *)
Theorem probe_unknown_device (dev : device) :
  compatible dev <> "allwinner,sun20i-d1-analog-ldos" ->
  compatible dev <> "allwinner,sun20i-d1-system-ldos" ->
  sun20i_regulator_probe dev =
  {| probe_ret := - EINVAL; probe_rdevs := []; probe_regmap := None |}.
Proof.
  intros Ha Hs. unfold sun20i_regulator_probe.
  rewrite (match_data_none dev Ha Hs). reflexivity.
Qed.

Lemma probe_unknown_device_witness :
  sun20i_regulator_probe unknown_dev =
  {| probe_ret := - EINVAL; probe_rdevs := []; probe_regmap := None |}.
Proof.
  apply (probe_unknown_device unknown_dev); vm_compute; discriminate.
Defined.

(** When neither the syscon interface nor the parent platform device has a
    register map, the probe of a known device is deferred: it returns
    [-EPROBE_DEFER] and registers nothing, and the calibration hook does not
    run. *)
Theorem probe_deferred_without_regmap
    (dev : device) (data : sun20i_regulator_data) :
  of_device_get_match_data dev = Some data ->
  syscon_node_to_regmap dev = None ->
  dev_get_regmap dev = None ->
  sun20i_regulator_probe dev =
  {| probe_ret := - EPROBE_DEFER; probe_rdevs := []; probe_regmap := None |}.
Proof.
  intros Hdata Hsyscon Hparent.
  unfold sun20i_regulator_probe, sun20i_regulator_get_regmap.
  rewrite Hdata, Hsyscon, Hparent. reflexivity.
Qed.

Lemma probe_deferred_without_regmap_witness :
  sun20i_regulator_probe orphan_dev =
  {| probe_ret := - EPROBE_DEFER; probe_rdevs := []; probe_regmap := None |}.
Proof.
  apply (probe_deferred_without_regmap orphan_dev sun20i_d1_system_ldos);
    reflexivity.
Defined.



Example probe_system_success :
  sun20i_regulator_probe system_dev =
  {| probe_ret := 0; probe_rdevs := [ldoa; ldob];
     probe_regmap := Some {[ SUN20I_SYS_LDO_CTRL_REG := 0x2a15 ]} |}.
Proof. vm_compute. reflexivity. Qed.

(** The loop stops at the first descriptor that the regulator core refuses. *)
Lemma register_descs_stops (dev : device) (pre : list regulator_desc) :
  forall rdevs desc post err,
    (forall done d, In d pre -> devm_regulator_register dev done d = 0) ->
    devm_regulator_register dev (rdevs ++ pre) desc = err ->
    err <> 0 ->
    register_descs dev (pre ++ desc :: post) rdevs = (err, rdevs ++ pre).
Proof.
  induction pre as [| d pre IH]; intros rdevs desc post err Hpre Hreg Herr.
  - rewrite app_nil_r in *. cbn [app register_descs]. rewrite Hreg.
    destruct (Z.eqb_spec err 0); [contradiction | reflexivity].
  - cbn [app register_descs].
    rewrite (Hpre rdevs d (or_introl eq_refl)). cbn [Z.eqb negb].
    rewrite (IH (rdevs ++ [d]) desc post err).
    + rewrite <- app_assoc. reflexivity.
    + intros done d' Hd'. apply Hpre. right. exact Hd'.
    + rewrite <- app_assoc. exact Hreg.
    + exact Herr.
Qed.

(** The probe of a known device with a register map, once the hook of its
    set (if it has one) has succeeded: the result is that of the
    registration loop over the whole table of the set. *)
Lemma probe_after_hook
    (dev : device) (data : sun20i_regulator_data) (regmap : gmap Z Z) :
  of_device_get_match_data dev = Some data ->
  sun20i_regulator_get_regmap dev = inr regmap ->
  (forall f, init data = Some f -> fst (f dev regmap) = 0) ->
  probe_ret (sun20i_regulator_probe dev) =
    fst (register_descs dev (descs data) []) /\
  probe_rdevs (sun20i_regulator_probe dev) =
    snd (register_descs dev (descs data) []).
Proof.
  intros Hdata Hmap Hhook.
  destruct (match_data_descs dev data Hdata) as (Hfirstn & _ & _).
  unfold sun20i_regulator_probe. rewrite Hdata, Hmap, Hfirstn.
  destruct (init data) as [f |].
  - specialize (Hhook f eq_refl).
    destruct (f dev regmap) as [ret regmap']. cbn [fst] in Hhook. subst ret.
    cbn [Z.eqb negb].
    destruct (register_descs dev (descs data) []) as [ret rdevs].
    split; reflexivity.
  - cbn [Z.eqb negb].
    destruct (register_descs dev (descs data) []) as [ret rdevs].
    split; reflexivity.
Qed.

(** When the hook of the set (if any) succeeds and the regulator core accepts
    every descriptor of the set, the probe returns 0 with exactly the rails
    of the set registered, in the order of the table. *)
Theorem probe_registers_all
    (dev : device) (data : sun20i_regulator_data) (regmap : gmap Z Z) :
  of_device_get_match_data dev = Some data ->
  sun20i_regulator_get_regmap dev = inr regmap ->
  (forall f, init data = Some f -> fst (f dev regmap) = 0) ->
  (forall done desc,
     In desc (descs data) -> devm_regulator_register dev done desc = 0) ->
  probe_ret (sun20i_regulator_probe dev) = 0 /\
  probe_rdevs (sun20i_regulator_probe dev) = descs data.
Proof.
  intros Hdata Hmap Hhook Hok.
  destruct (probe_after_hook dev data regmap Hdata Hmap Hhook) as [-> ->].
  destruct (register_descs_result dev (descs data) [])
    as [-> | (err & pre & desc & post & Hsplit & Herr & Hreg & _)].
  - split; reflexivity.
  - exfalso. apply Herr. rewrite <- Hreg. apply Hok.
    rewrite Hsplit. apply in_or_app. right. left. reflexivity.
Qed.

Lemma probe_registers_all_witness :
  probe_ret (sun20i_regulator_probe (analog_dev 0 0x1c)) = 0 /\
  probe_rdevs (sun20i_regulator_probe (analog_dev 0 0x1c)) =
    descs sun20i_d1_analog_ldos.
Proof.
  apply (probe_registers_all (analog_dev 0 0x1c) sun20i_d1_analog_ldos
           {[ SUN20I_POWER_REG := 0x80000000 ]}).
  - reflexivity.
  - reflexivity.
  - intros f [= <-]. vm_compute. reflexivity.
  - intros done desc _. reflexivity.
Defined.

(** When the regulator core refuses a descriptor, the probe returns that
    error at once: the descriptors before it in the table are registered,
    the ones after it are not tried. *)
Theorem probe_stops_at_first_refusal
    (dev : device) (data : sun20i_regulator_data) (regmap : gmap Z Z)
    (pre post : list regulator_desc) (desc : regulator_desc) (err : Z) :
  of_device_get_match_data dev = Some data ->
  sun20i_regulator_get_regmap dev = inr regmap ->
  (forall f, init data = Some f -> fst (f dev regmap) = 0) ->
  descs data = pre ++ desc :: post ->
  (forall done d, In d pre -> devm_regulator_register dev done d = 0) ->
  devm_regulator_register dev pre desc = err ->
  err <> 0 ->
  probe_ret (sun20i_regulator_probe dev) = err /\
  probe_rdevs (sun20i_regulator_probe dev) = pre.
Proof.
  intros Hdata Hmap Hhook Hsplit Hpre Hreg Herr.
  destruct (probe_after_hook dev data regmap Hdata Hmap Hhook) as [-> ->].
  rewrite Hsplit.
  rewrite (register_descs_stops dev pre [] desc post err Hpre Hreg Herr).
  split; reflexivity.
Qed.

Lemma probe_stops_at_first_refusal_witness :
  probe_ret (sun20i_regulator_probe hpldo_refused_dev) = -16 /\
  probe_rdevs (sun20i_regulator_probe hpldo_refused_dev) = [aldo].
Proof.
  apply (probe_stops_at_first_refusal hpldo_refused_dev
           sun20i_d1_analog_ldos {[ SUN20I_POWER_REG := 0x80000000 ]}
           [aldo] [] hpldo (-16)).
  - reflexivity.
  - reflexivity.
  - intros f [= <-]. vm_compute. reflexivity.
  - reflexivity.
  - intros done d [<- | []]. reflexivity.
  - reflexivity.
  - lia.
Defined.

Lemma get_regmap_error (dev : device) (err : Z) :
  sun20i_regulator_get_regmap dev = inl err -> err = - EPROBE_DEFER.
Proof.
  unfold sun20i_regulator_get_regmap.
  destruct (syscon_node_to_regmap dev); [discriminate |].
  destruct (dev_get_regmap dev); [discriminate |].
  intros [= <-]. reflexivity.
Qed.

(** For a known device the probe returns 0 exactly when it has registered
    every rail of the set: any failure (no register map, a failing hook, a
    refused descriptor) leaves at least one rail of the set unregistered. *)
Theorem probe_success_iff_all_registered
    (dev : device) (data : sun20i_regulator_data) :
  of_device_get_match_data dev = Some data ->
  (probe_ret (sun20i_regulator_probe dev) = 0 <->
   probe_rdevs (sun20i_regulator_probe dev) = descs data).
Proof.
  intros Hdata.
  destruct (match_data_descs dev data Hdata) as (Hfirstn & Hnonempty & _).
  unfold sun20i_regulator_probe. rewrite Hdata, Hfirstn.
  destruct (sun20i_regulator_get_regmap dev) as [err | regmap] eqn:Hmap.
  - apply get_regmap_error in Hmap. subst err. cbn [probe_ret probe_rdevs].
    split; [discriminate | intros Hnil; congruence].
  - destruct (match init data with
              | Some f => f dev regmap
              | None => (0, regmap)
              end) as [ret regmap'].
    destruct (Z.eqb_spec ret 0) as [-> | Hret]; cbn [negb].
    + destruct (register_descs_result dev (descs data) [])
        as [-> | (err & pre & desc & post & Hsplit & Herr & _ & ->)];
        cbn [probe_ret probe_rdevs app].
      * split; reflexivity.
      * split; [intros ->; contradiction |].
        intros Hpre. exfalso. rewrite Hsplit in Hpre.
        apply (f_equal (@length regulator_desc)) in Hpre.
        rewrite length_app in Hpre. cbn [length] in Hpre. lia.
    + cbn [probe_ret probe_rdevs].
      split; [intros ->; contradiction | intros Hnil; congruence].
Qed.

Lemma probe_success_iff_all_registered_witness :
  probe_ret (sun20i_regulator_probe hpldo_refused_dev) = 0 <->
  probe_rdevs (sun20i_regulator_probe hpldo_refused_dev) =
    descs sun20i_d1_analog_ldos.
Proof.
  apply (probe_success_iff_all_registered hpldo_refused_dev
           sun20i_d1_analog_ldos).
  reflexivity.
Defined.




Example probe_hpldo_refused :
  sun20i_regulator_probe hpldo_refused_dev =
  {| probe_ret := -16; probe_rdevs := [aldo];
     probe_regmap := Some {[ SUN20I_POWER_REG := 0x8000001c ]} |}.
Proof. vm_compute. reflexivity. Qed.
